(** * Cache-key derivation and caching middleware of [src/cachers/base.js]

    A shallow embedding of the abstract [Cacher] class of the moleculer
    service framework: the key hasher ([_generateKeyFromObject],
    [_hashObj]), the key generator ([getParamMetaValue], [defaultKeygen],
    [getCacheKey]) and the [middleware] that serves an action from the
    cache or calls its handler and stores the result.

    The class leans on three collaborators that live outside the file:
    the JavaScript built-ins (truthiness, string conversion, [join],
    [reduce]), lodash ([_.isObject], [_.get]) and node's [crypto]
    (SHA-256 with base64 output).  Each gets a module of its own below,
    written from its documented behaviour, before the class itself. *)

From Stdlib Require Import ZArith List String Ascii Bool Lia.
From Stdlib Require Import DecimalString.
Import ListNotations.

Set Warnings "-register-all".
Local Open Scope string_scope.
Local Open Scope Z_scope.

(* ================================================================== *)
(** ** node's [crypto]: SHA-256 and base64                              *)
(* ================================================================== *)

Module Crypto.

Local Open Scope list_scope.

(** 32-bit words are integers in [0, 2^32); every operation that can
    leave that range wraps explicitly. *)
Definition wrap32 (x : Z) : Z := x mod 2 ^ 32.
Definition add32 (x y : Z) : Z := wrap32 (x + y).
Definition not32 (x : Z) : Z := Z.lxor x (2 ^ 32 - 1).
Definition rotr (n x : Z) : Z :=
  Z.lor (Z.shiftr x n) (wrap32 (Z.shiftl x (32 - n))).

Definition Ch (x y z : Z) : Z := Z.lxor (Z.land x y) (Z.land (not32 x) z).
Definition Maj (x y z : Z) : Z :=
  Z.lxor (Z.lxor (Z.land x y) (Z.land x z)) (Z.land y z).
Definition bigS0 (x : Z) : Z := Z.lxor (Z.lxor (rotr 2 x) (rotr 13 x)) (rotr 22 x).
Definition bigS1 (x : Z) : Z := Z.lxor (Z.lxor (rotr 6 x) (rotr 11 x)) (rotr 25 x).
Definition smallS0 (x : Z) : Z := Z.lxor (Z.lxor (rotr 7 x) (rotr 18 x)) (Z.shiftr x 3).
Definition smallS1 (x : Z) : Z := Z.lxor (Z.lxor (rotr 17 x) (rotr 19 x)) (Z.shiftr x 10).

(** The round constants and the initial state are the leading 32
    fractional bits of the cube (resp. square) roots of the first
    primes; they are computed here rather than tabulated. *)
Fixpoint iroot (e n : Z) (bits : nat) (r : Z) : Z :=
  match bits with
  | O => r
  | S b =>
      let r' := r + 2 ^ Z.of_nat b in
      if r' ^ e <=? n then iroot e n b r' else iroot e n b r
  end.

Definition is_prime (n : nat) : bool :=
  forallb (fun d => negb (Nat.eqb (Nat.modulo n d) 0)) (seq 2 (n - 2)).

Definition primes64 : list Z :=
  Eval vm_compute in map Z.of_nat (filter is_prime (seq 2 310)).

Definition frac_root (e p : Z) : Z :=
  wrap32 (iroot e (p * 2 ^ (32 * e)) 48 0).

Definition K : list Z := Eval vm_compute in map (frac_root 3) primes64.
Definition H0 : list Z := Eval vm_compute in map (frac_root 2) (firstn 8 primes64).

(** Hash state: the eight working words. *)
Record state := State { sa : Z; sb : Z; sc : Z; sd : Z; se : Z; sf : Z; sg : Z; sh : Z }.

Definition init_state : state :=
  match H0 with
  | [a; b; c; d; e; f; g; h] => State a b c d e f g h
  | _ => State 0 0 0 0 0 0 0 0
  end.

Definition round (s : state) (kw : Z * Z) : state :=
  let '(k, w) := kw in
  let t1 := add32 (add32 (add32 (add32 (sh s) (bigS1 (se s))) (Ch (se s) (sf s) (sg s))) k) w in
  let t2 := add32 (bigS0 (sa s)) (Maj (sa s) (sb s) (sc s)) in
  State (add32 t1 t2) (sa s) (sb s) (sc s) (add32 (sd s) t1) (se s) (sf s) (sg s).

(** Message schedule, kept newest word first while it grows. *)
Fixpoint extend (n : nat) (rw : list Z) : list Z :=
  match n with
  | O => rw
  | S n' =>
      let w := add32 (add32 (add32 (smallS1 (nth 1 rw 0)) (nth 6 rw 0))
                            (smallS0 (nth 14 rw 0))) (nth 15 rw 0) in
      extend n' (w :: rw)
  end.

Definition schedule (block : list Z) : list Z := rev (extend 48 (rev block)).

Definition compress (s : state) (block : list Z) : state :=
  let s' := fold_left round (combine K (schedule block)) s in
  State (add32 (sa s) (sa s')) (add32 (sb s) (sb s')) (add32 (sc s) (sc s'))
        (add32 (sd s) (sd s')) (add32 (se s) (se s')) (add32 (sf s) (sf s'))
        (add32 (sg s) (sg s')) (add32 (sh s) (sh s')).

(** Bytes are integers in [0, 256). *)
Definition be_bytes (width : nat) (x : Z) : list Z :=
  map (fun i => Z.land (Z.shiftr x (8 * Z.of_nat i)) 255) (rev (seq 0 width)).

Fixpoint be_word (bytes : list Z) (acc : Z) : Z :=
  match bytes with
  | [] => acc
  | b :: r => be_word r (acc * 256 + b)
  end.

Fixpoint chunks {A} (size fuel : nat) (l : list A) : list (list A) :=
  match fuel, l with
  | _, [] => []
  | O, _ => []
  | S f, _ => firstn size l :: chunks size f (skipn size l)
  end.

Definition pad (msg : list Z) : list Z :=
  let len := Z.of_nat (List.length msg) in
  msg ++ [128] ++ repeat 0 (Z.to_nat ((55 - len) mod 64)) ++ be_bytes 8 (8 * len).

Definition blocks (msg : list Z) : list (list Z) :=
  let p := pad msg in
  map (fun b => map (fun w => be_word w 0) (chunks 4 16 b)) (chunks 64 (List.length p) p).

Definition sha256 (msg : list Z) : list Z :=
  let s := fold_left compress (blocks msg) init_state in
  List.concat (map (be_bytes 4) [sa s; sb s; sc s; sd s; se s; sf s; sg s; sh s]).

(** base64 with the standard alphabet and [=] padding, as
    [digest("base64")] produces it. *)
Definition alphabet : string :=
  "ABCDEFGHIJKLMNOPQRSTUVWXYZabcdefghijklmnopqrstuvwxyz0123456789+/".

Definition b64char (n : Z) : ascii :=
  match String.get (Z.to_nat n) alphabet with
  | Some c => c
  | None => "="%char
  end.

Fixpoint base64 (l : list Z) : string :=
  match l with
  | [] => ""
  | [a] =>
      String (b64char (Z.shiftr a 2))
        (String (b64char (Z.shiftl (Z.land a 3) 4)) "==")
  | [a; b] =>
      String (b64char (Z.shiftr a 2))
        (String (b64char (Z.lor (Z.shiftl (Z.land a 3) 4) (Z.shiftr b 4)))
           (String (b64char (Z.shiftl (Z.land b 15) 2)) "="))
  | a :: b :: c :: rest =>
      String (b64char (Z.shiftr a 2))
        (String (b64char (Z.lor (Z.shiftl (Z.land a 3) 4) (Z.shiftr b 4)))
           (String (b64char (Z.lor (Z.shiftl (Z.land b 15) 2) (Z.shiftr c 6)))
              (String (b64char (Z.land c 63)) (base64 rest))))
  end.

(** The bytes that [update(key)] feeds to the hash: one per character,
    as for text in the ASCII range, where the length of a string and
    the number of its bytes agree. *)
Definition bytes_of_string (s : string) : list Z :=
  map (fun c => Z.of_N (N_of_ascii c)) (list_ascii_of_string s).

(** [crypto.createHash("sha256").update(key).digest("base64")] *)
Definition sha256_base64 (key : string) : string :=
  base64 (sha256 (bytes_of_string key)).

End Crypto.

(* ================================================================== *)
(** ** The JavaScript values the cacher handles                         *)
(* ================================================================== *)

Module JS.

(** Values of the parameter and metadata bags.  Numbers are the
    integral ones (their decimal rendering is what [toString] gives);
    an object is the list of its own enumerable properties in the order
    [Object.keys] reports them, the first binding of a name being the
    property.  Functions and inherited properties are outside this
    fragment. *)
Inductive value : Type :=
| VUndefined
| VNull
| VBool (b : bool)
| VNum (n : Z)
| VStr (s : string)
| VArr (elems : list value)
| VObj (props : list (string * value)).

(** [v == null] *)
Definition nullish (v : value) : bool :=
  match v with
  | VUndefined | VNull => true
  | _ => false
  end.

(** The truthiness tested by [if (v)] and [v || w]. *)
Definition truthy (v : value) : bool :=
  match v with
  | VUndefined | VNull => false
  | VBool b => b
  | VNum n => negb (n =? 0)
  | VStr s => negb (String.eqb s "")
  | VArr _ | VObj _ => true
  end.

(** [Array.isArray(v)] *)
Definition isArray (v : value) : bool :=
  match v with
  | VArr _ => true
  | _ => false
  end.

(** [Array.prototype.join] on an array of strings. *)
Fixpoint join (sep : string) (l : list string) : string :=
  match l with
  | [] => ""
  | x :: rest =>
      match rest with
      | [] => x
      | _ :: _ => x ++ sep ++ join sep rest
      end
  end.

Definition number_toString (n : Z) : string :=
  NilZero.string_of_int (Z.to_int n).

(** String conversion, as [v.toString()] on a primitive and as the
    [+] operator applies it to its right operand. *)
Fixpoint toString (v : value) : string :=
  match v with
  | VUndefined => "undefined"
  | VNull => "null"
  | VBool true => "true"
  | VBool false => "false"
  | VNum n => number_toString n
  | VStr s => s
  | VArr elems => join "," (map (fun e => if nullish e then "" else toString e) elems)
  | VObj _ => "[object Object]"
  end.

(** [Array.prototype.reduce] with the element index passed to the
    callback, started at index [i]. *)
Fixpoint reduce {A B : Type} (f : B -> A -> nat -> B) (l : list A) (i : nat) (acc : B) : B :=
  match l with
  | [] => acc
  | x :: rest => reduce f rest (S i) (f acc x i)
  end.

(** [s.startsWith("#")] and [s.slice(1)] *)
Definition startsWith (p s : string) : bool := String.prefix p s.

Definition slice1 (s : string) : string :=
  match s with
  | EmptyString => ""
  | String _ rest => rest
  end.

(** Property read [o[k]] on own properties: named properties of an
    object, indices and [length] of an array or a string.  A read of a
    name that the value only inherits (see [inherited] below) finds a
    built-in function, which is no value of this fragment; the reads
    are those of the code for every other name. *)
Fixpoint assoc (k : string) (props : list (string * value)) : option value :=
  match props with
  | [] => None
  | (k', v) :: rest => if String.eqb k k' then Some v else assoc k rest
  end.

Definition array_index (k : string) : option nat :=
  match NilZero.uint_of_string k with
  | Some d =>
      let i := Nat.of_uint d in
      if String.eqb (NilZero.string_of_uint (Nat.to_uint i)) k then Some i else None
  | None => None
  end.

Definition getOwn (o : value) (k : string) : option value :=
  match o with
  | VObj props => assoc k props
  | VArr elems =>
      match array_index k with
      | Some i => nth_error elems i
      | None =>
          if String.eqb k "length" then Some (VNum (Z.of_nat (List.length elems)))
          else None
      end
  | VStr s =>
      match array_index k with
      | Some i => option_map (fun c => VStr (String c "")) (String.get i s)
      | None =>
          if String.eqb k "length" then Some (VNum (Z.of_nat (String.length s)))
          else None
      end
  | _ => None
  end.

Definition prop (o : value) (k : string) : value :=
  match getOwn o k with
  | Some v => v
  | None => VUndefined
  end.

(** The names every plain object inherits from [Object.prototype]. *)
Definition object_prototype_names : list string :=
  ["constructor"; "__defineGetter__"; "__defineSetter__"; "hasOwnProperty";
   "__lookupGetter__"; "__lookupSetter__"; "isPrototypeOf"; "propertyIsEnumerable";
   "toString"; "valueOf"; "__proto__"; "toLocaleString"].

Definition inherited (k : string) : bool :=
  existsb (String.eqb k) object_prototype_names.

(** [k in o] for a plain object with the properties [props]: a property
    of its own or one it inherits. *)
Definition hasProperty (props : list (string * value)) (k : string) : bool :=
  match assoc k props with
  | Some _ => true
  | None => inherited k
  end.

End JS.

(* ================================================================== *)
(** ** lodash                                                          *)
(* ================================================================== *)

Module Lodash.
Import JS.

(** [_.isObject]: arrays and objects (and functions, which the value
    fragment does not have). *)
Definition isObject (v : value) : bool :=
  match v with
  | VArr _ | VObj _ => true
  | _ => false
  end.

(** Path syntax of [_.get], dotted form: the path is cut at every
    dot.  The bracket form [a[0]] is not interpreted: the cut is that
    of lodash for the paths without brackets. *)
Fixpoint stringToPath (path : string) : list string :=
  match path with
  | EmptyString => [""]
  | String c rest =>
      if Ascii.eqb c "."%char then "" :: stringToPath rest
      else
        match stringToPath rest with
        | seg :: segs => String c seg :: segs
        | [] => [String c ""]
        end
  end.

(** A path that names a property of the object itself is taken whole
    ([isKey]); otherwise it is cut into segments. *)
Definition castPath (path : string) (object : value) : list string :=
  match getOwn object path with
  | Some _ => [path]
  | None => stringToPath path
  end.

Fixpoint baseGet (object : value) (path : list string) : value :=
  match path with
  | [] => object
  | k :: rest => if nullish object then VUndefined else baseGet (prop object k) rest
  end.

(** [_.get(object, path)] *)
Definition get (object : value) (path : string) : value :=
  if nullish object then VUndefined else baseGet object (castPath path object).

(** A name without dot or bracket, which no path syntax cuts. *)
Fixpoint plain_name (k : string) : bool :=
  match k with
  | EmptyString => true
  | String c rest =>
      negb (Ascii.eqb c "."%char) && negb (Ascii.eqb c "["%char)
        && negb (Ascii.eqb c "]"%char) && plain_name rest
  end.

End Lodash.

(* ================================================================== *)
(** ** The [Cacher] class: options and key derivation                  *)
(* ================================================================== *)

Import JS.

(** Signature of a key generator: [(actionName, params, meta, keys)]. *)
Definition Keygen : Type := string -> value -> value -> option (list string) -> string.

(** [this.opts].  [None] stands for a field that is [null] or missing;
    [ttl] is passed on untouched and so stays a plain value. *)
Record CacherOptions := {
  ttl : value;
  keygen : option Keygen;
  maxKeyLength : option Z
}.

(** The constructor: [_.defaultsDeep(opts, {ttl: null, keygen: null,
    maxKeyLength: 44})] fills the fields the caller left out. *)
Definition constructor (o : CacherOptions) : CacherOptions :=
  {| ttl := if nullish (ttl o) then VNull else ttl o;
     keygen := keygen o;
     maxKeyLength := match maxKeyLength o with
                     | Some m => Some m
                     | None => Some 44
                     end |}.

Definition default_opts : CacherOptions :=
  constructor {| ttl := VUndefined; keygen := None; maxKeyLength := None |}.

Definition with_maxKeyLength (m : Z) : CacherOptions :=
  constructor {| ttl := VUndefined; keygen := None; maxKeyLength := Some m |}.

(** [getParamMetaValue(key, params, meta)]; falling off the end of the
    function yields [undefined]. *)
Definition getParamMetaValue (key : string) (params meta : value) : value :=
  if startsWith "#" key && negb (nullish meta) then
    Lodash.get meta (slice1 key)
  else if negb (nullish params) then
    Lodash.get params key
  else VUndefined.

(** The string form of a value: elements, and names with the string
    forms of their values, joined by bars. *)
Fixpoint _generateKeyFromObject (obj : value) : string :=
  match obj with
  | VArr elems => join "|" (map _generateKeyFromObject elems)
  | VObj props =>
      join "|" (map (fun '(key, v) => join "|" [key; _generateKeyFromObject v]) props)
  | VUndefined | VNull => "null"
  | _ => toString obj
  end.

(** The string form cut down to the configured length: past the limit
    it is replaced by its hash, behind as much of its beginning as the
    limit leaves room for. *)
Definition _hashObj (opts : CacherOptions) (obj : value) : string :=
  let maxKeyLength :=
    match maxKeyLength opts with
    | Some m => if m =? 0 then 44 else m
    | None => 44
    end in
  let key := _generateKeyFromObject obj in
  if (maxKeyLength <? 44) || (Z.of_nat (String.length key) <=? maxKeyLength) then key
  else
    let prefixLength := maxKeyLength - 44 in
    let base64Hash := Crypto.sha256_base64 key in
    if prefixLength <? 1 then base64Hash
    else substring 0 (Z.to_nat prefixLength) key ++ base64Hash.

(** The default key generator.  [keys = None] is a [keys] argument
    that is [null] or missing; an array, empty or not, is truthy. *)
Definition defaultKeygen (opts : CacherOptions) (actionName : string)
    (params meta : value) (keys : option (list string)) : string :=
  if truthy params || truthy meta then
    let keyPrefix := actionName ++ ":" in
    match keys with
    | Some keys =>
        if Nat.eqb (List.length keys) 1 then
          let val := getParamMetaValue (nth 0 keys "") params meta in
          keyPrefix ++ (if Lodash.isObject val then _hashObj opts val else toString val)
        else if Nat.ltb 0 (List.length keys) then
          reduce (fun a key i =>
                    let val := getParamMetaValue key params meta in
                    (a ++ (if Nat.eqb i 0 then "" else "|"))
                      ++ (if Lodash.isObject val || isArray val
                          then _hashObj opts val else toString val))
                 keys 0%nat keyPrefix
        else actionName
    | None => keyPrefix ++ _hashObj opts params
    end
  else actionName.

(** A configured key generator takes over, otherwise the default one. *)
Definition getCacheKey (opts : CacherOptions) (actionName : string)
    (params meta : value) (keys : option (list string)) : string :=
  match keygen opts with
  | Some f => f actionName params meta keys
  | None => defaultKeygen opts actionName params meta keys
  end.

(* ================================================================== *)
(** ** Calls, promises and the middleware                              *)
(* ================================================================== *)

(** A promise settles one way or the other; a call of a function that
    hands back a promise either throws on the spot or returns it.  One
    invocation is followed in isolation, so a [then] callback runs right
    after the promise it hangs on. *)
Definition error : Type := string.

Inductive settled : Type :=
| Resolved (v : value)
| Rejected (e : error).

Inductive completion : Type :=
| Throw (e : error)
| Return (p : settled).

(** [p.then(cb)]: a rejection skips the callback, a throw inside the
    callback rejects, and a promise returned by the callback is adopted. *)
Definition then_ {S : Type} (p : settled) (s : S)
    (cb : value -> S -> completion * S) : settled * S :=
  match p with
  | Rejected e => (Rejected e, s)
  | Resolved v =>
      match cb v s with
      | (Throw e, s') => (Rejected e, s')
      | (Return q, s') => (q, s')
      end
  end.

(** The invocation context, with the flag the middleware raises. *)
Record Ctx := {
  params : value;
  meta : value;
  cachedResult : bool
}.

Definition set_cachedResult (b : bool) (ctx : Ctx) : Ctx :=
  {| params := params ctx; meta := meta ctx; cachedResult := b |}.

(** [action.cache] and the action descriptor; [cache = None] is an
    action whose [cache] property is missing or falsy. *)
Record CacheConfig := {
  cache_keys : option (list string);
  cache_ttl : value
}.

Record Action := {
  name : string;
  cache : option CacheConfig
}.

(** A handler may change the world and the context it is given. *)
Definition Handler (World : Type) : Type :=
  Ctx -> World -> completion * Ctx * World.

(** A cacher: its options and the two storage methods the middleware
    calls, acting on the state of the world. *)
Record Cacher (World : Type) := {
  opts : CacherOptions;
  get : string -> World -> completion * World;
  set : string -> value -> value -> World -> completion * World
}.
Arguments opts {World} _.
Arguments get {World} _ _ _.
Arguments set {World} _ _ _ _ _.

(** The abstract class itself: both storage methods throw. *)
Definition abstract_Cacher {World : Type} (o : CacherOptions) : Cacher World :=
  {| opts := constructor o;
     get := fun _ w => (Throw "Not implemented method!", w);
     set := fun _ _ _ w => (Throw "Not implemented method!", w) |}.

Definition middleware {World : Type} (this : Cacher World)
    (handler : Handler World) (action : Action) : Handler World :=
  match cache action with
  | Some cfg =>
      fun ctx w =>
        let cacheKey :=
          getCacheKey (opts this) (name action) (params ctx) (meta ctx) (cache_keys cfg) in
        match get this cacheKey w with
        | (Throw e, w) => (Throw e, ctx, w)
        | (Return p, w) =>
            let '(r, (ctx, w)) :=
              then_ p (ctx, w) (fun content '(ctx, w) =>
                if negb (nullish content) then
                  (Return (Resolved content), (set_cachedResult true ctx, w))
                else
                  match handler ctx w with
                  | (Throw e, ctx, w) => (Throw e, (ctx, w))
                  | (Return q, ctx, w) =>
                      let '(r, s) :=
                        then_ q (ctx, w) (fun result '(ctx, w) =>
                          match set this cacheKey result (cache_ttl cfg) w with
                          | (Throw e, w) => (Throw e, (ctx, w))
                          | (Return _, w) => (Return (Resolved result), (ctx, w))
                          end) in
                      (Return r, s)
                  end) in
            (Return r, ctx, w)
        end
  | None => handler
  end.

(** *** Observing the calls

    The collaborators are wrapped so that each call is appended to a
    log kept next to the world, the way a test spies on them. *)
Inductive call : Type :=
| GetCall (key : string)
| SetCall (key : string) (data ttl : value)
| HandlerCall (ctx : Ctx).

Definition spy_cacher {World : Type} (c : Cacher World) : Cacher (World * list call) :=
  {| opts := opts c;
     get := fun key '(w, log) =>
              let '(r, w') := get c key w in (r, (w', (log ++ [GetCall key])%list));
     set := fun key data t '(w, log) =>
              let '(r, w') := set c key data t w in
              (r, (w', (log ++ [SetCall key data t])%list)) |}.

Definition spy_handler {World : Type} (h : Handler World) : Handler (World * list call) :=
  fun ctx '(w, log) =>
    let '(r, ctx', w') := h ctx w in (r, ctx', (w', (log ++ [HandlerCall ctx])%list)).

(** *** Sample backends

    A store kept in the world as an association list; a store with
    room for a fixed number of entries, whose [set] throws once it is
    full; and a backend whose writes fail through the promise they
    return. *)
Definition Store : Type := list (string * value).

Definition lookup (key : string) (store : Store) : value :=
  match assoc key store with
  | Some v => v
  | None => VNull
  end.

Definition memory_cacher : Cacher Store :=
  {| opts := default_opts;
     get := fun key store => (Return (Resolved (lookup key store)), store);
     set := fun key data _ store => (Return (Resolved VUndefined), (key, data) :: store) |}.

Definition bounded_cacher (capacity : nat) : Cacher Store :=
  {| opts := default_opts;
     get := get memory_cacher;
     set := fun key data t store =>
              if Nat.ltb (List.length store) capacity
              then set memory_cacher key data t store
              else (Throw "cache is full", store) |}.

Definition failing_writes_cacher : Cacher Store :=
  {| opts := default_opts;
     get := get memory_cacher;
     set := fun _ _ _ store => (Return (Rejected "connection lost"), store) |}.

(** A handler that answers with a fixed value and leaves everything
    else alone. *)
Definition const_handler {World : Type} (v : value) : Handler World :=
  fun ctx w => (Return (Resolved v), ctx, w).

(** The limit [_hashObj] works with: [this.opts.maxKeyLength || 44]. *)
Definition effective_maxKeyLength (opts : CacherOptions) : Z :=
  match maxKeyLength opts with
  | Some m => if m =? 0 then 44 else m
  | None => 44
  end.

(** A value whose string form has 54 characters. *)
Definition long_params : value :=
  VObj [("name", VStr "a-rather-long-user-name"); ("email", VStr "someone@example.com")].

(** Sample invocations: an action cached on its whole parameter bag,
    an action without cache settings, and a context for each. *)
Definition cached_action : Action :=
  {| name := "users.get";
     cache := Some {| cache_keys := None; cache_ttl := VNum 30 |} |}.

Definition plain_action : Action :=
  {| name := "users.create"; cache := None |}.

Definition ctx_id5 : Ctx :=
  {| params := VObj [("id", VNum 5)]; meta := VObj []; cachedResult := false |}.

Definition ctx_id7 : Ctx :=
  {| params := VObj [("id", VNum 7)]; meta := VObj []; cachedResult := false |}.

(** The text one selector contributes to a key: the field it names,
    hashed when it is an object or an array, converted to a string
    otherwise. *)
Definition keyPart (opts : CacherOptions) (params meta : value) (key : string) : string :=
  let val := getParamMetaValue key params meta in
  if Lodash.isObject val then _hashObj opts val else toString val.

(** An object laid out as the sequence of its names and values. *)
Definition entries (props : list (string * value)) : list value :=
  flat_map (fun '(k, v) => [VStr k; v]) props.

(** *** [init]: attaching the cacher to a broker

    What [init] reads of a broker is its namespace ([None] when it has
    none).  What it leaves behind are the fields it sets on the cacher
    ([None] for a field it leaves undefined), the module name it asked a
    logger for, and the number of middlewares it handed to
    [broker.use].  [this.opts.prefix] comes as an argument, [None] when
    the option is missing. *)
Record Broker := {
  namespace : option string
}.

Record Attached := {
  this_broker : option Broker;
  this_logger : option string;
  this_prefix : option string;
  registered : nat
}.

Definition truthy_string (s : option string) : bool :=
  match s with
  | Some t => truthy (VStr t)
  | None => false
  end.

Definition string_or_empty (s : option string) : string :=
  match s with
  | Some t => t
  | None => ""
  end.

Definition init (opts_prefix : option string) (broker : option Broker) : Attached :=
  match broker with
  | Some b =>
      {| this_broker := Some b;
         this_logger := Some "cacher";
         this_prefix :=
           Some (if truthy_string opts_prefix then string_or_empty opts_prefix ++ "-"
                 else
                   let prefix := "MOL-" in
                   if truthy_string (namespace b)
                   then prefix ++ (string_or_empty (namespace b) ++ "-")
                   else prefix);
         registered := 1 |}
  | None =>
      {| this_broker := None; this_logger := None; this_prefix := None; registered := 0 |}
  end.

(* ================================================================== *)
(** ** Sanity checks of the collaborators                              *)
(* ================================================================== *)

Example sha256_abc :
  Crypto.sha256_base64 "abc" = "ungWv48Bz+pBQUDeXa4iI7ADYaOWF3qctBD/YfIAFa0=".
Proof. vm_compute. reflexivity. Qed.

Example sha256_empty :
  Crypto.sha256_base64 "" = "47DEQpj8HBSa+/TImW+5JCeuQeRkm5NMpJWZG3hSuFU=".
Proof. vm_compute. reflexivity. Qed.

Example gen_nested :
  _generateKeyFromObject
    (VObj [("a", VNum 1); ("b", VObj [("c", VNum (-2)); ("d", VArr [VBool true; VNull; VStr "x"])])])
  = "a|1|b|c|-2|d|true|null|x".
Proof. reflexivity. Qed.

Example keygen_id : defaultKeygen default_opts "get" (VObj [("id", VNum 5)]) VNull (Some ["id"]) = "get:5".
Proof. reflexivity. Qed.

Example get_nested :
  Lodash.get (VObj [("a", VObj [("b", VArr [VNum 7; VNum 8])])]) "a.b.1" = VNum 8.
Proof. reflexivity. Qed.

Example zero_str : toString (VNum 0) = "0" /\ toString (VNum 120) = "120".
Proof. split; reflexivity. Qed.

Example array_indices :
  prop (VArr [VStr "x"; VStr "y"]) "1" = VStr "y" /\
  prop (VArr [VStr "x"; VStr "y"]) "01" = VUndefined /\
  prop (VArr [VStr "x"; VStr "y"]) "length" = VNum 2 /\
  Lodash.get (VObj [("a.b", VNum 1); ("a", VObj [("b", VNum 2)])]) "a.b" = VNum 1.
Proof. repeat split. Qed.

(* ================================================================== *)
(** ** KeyHasher: [_hashObj]                                           *)
(* ================================================================== *)

Lemma length_append (s t : string) :
  String.length (s ++ t) = (String.length s + String.length t)%nat.
Proof.
  induction s as [|c s IH]; simpl; [reflexivity | now rewrite IH].
Qed.

Lemma length_substring0 (n : nat) : forall s : string,
  (n <= String.length s)%nat -> String.length (substring 0 n s) = n.
Proof.
  induction n as [|n IH]; intros s Hn.
  - now destruct s.
  - destruct s as [|c s]; simpl in *; [lia|].
    rewrite IH; [reflexivity | lia].
Qed.

Lemma substring0_nothing (s : string) : substring 0 0 s = "".
Proof. now destruct s. Qed.

(** The base64 text of a SHA-256 digest has 44 characters, whatever was
    hashed: 32 bytes make ten full groups and one padded group. *)
Lemma sha256_base64_length (key : string) :
  String.length (Crypto.sha256_base64 key) = 44%nat.
Proof.
  unfold Crypto.sha256_base64, Crypto.sha256.
  generalize (fold_left Crypto.compress (Crypto.blocks (Crypto.bytes_of_string key))
                Crypto.init_state).
  intros s. reflexivity.
Qed.

Lemma hashObj_unfold (opts : CacherOptions) (obj : value) :
  _hashObj opts obj =
  let m := effective_maxKeyLength opts in
  let key := _generateKeyFromObject obj in
  if (m <? 44) || (Z.of_nat (String.length key) <=? m) then key
  else if m - 44 <? 1 then Crypto.sha256_base64 key
       else substring 0 (Z.to_nat (m - 44)) key ++ Crypto.sha256_base64 key.
Proof. reflexivity. Qed.

(** C3, as stated, fails: a configured limit of 0 is falsy, so
    [this.opts.maxKeyLength || 44] replaces it by 44 and a 54-character
    key is hashed instead of being returned unchanged. *)
Lemma hashObj_zero_limit_hashes :
  0 < 44 /\
  _generateKeyFromObject long_params
    = "name|a-rather-long-user-name|email|someone@example.com" /\
  _hashObj (with_maxKeyLength 0) long_params
    = "DFeaucuxLHS5MASNtsZS7QtSgTIhTEuXr1E0ouyWi2A=" /\
  _hashObj (with_maxKeyLength 0) long_params <> _generateKeyFromObject long_params.
Proof.
  assert (H : _hashObj (with_maxKeyLength 0) long_params
              = "DFeaucuxLHS5MASNtsZS7QtSgTIhTEuXr1E0ouyWi2A=")
    by (vm_compute; reflexivity).
  split; [lia|]. split; [reflexivity|]. split; [exact H|].
  rewrite H. discriminate.
Qed.

(** C3 (amended): for every value and every configured limit below 44
    other than 0, [_hashObj] returns the string form of the value
    unchanged, whatever its length. *)
Theorem hashObj_small_limit_unchanged (opts : CacherOptions) (m : Z) (v : value) :
  maxKeyLength opts = Some m ->
  m < 44 ->
  m <> 0 ->
  _hashObj opts v = _generateKeyFromObject v.
Proof.
  intros Hm Hlt Hnz.
  rewrite hashObj_unfold. unfold effective_maxKeyLength. rewrite Hm.
  destruct (Z.eqb_spec m 0) as [?|_]; [contradiction|].
  cbv zeta. destruct (Z.ltb_spec m 44) as [_|?]; [reflexivity | lia].
Qed.

Lemma hashObj_small_limit_unchanged_witness :
  _hashObj (with_maxKeyLength 10) long_params
    = "name|a-rather-long-user-name|email|someone@example.com".
Proof.
  rewrite (hashObj_small_limit_unchanged (with_maxKeyLength 10) 10 long_params);
    [reflexivity | reflexivity | lia | lia].
Defined.

(** C5: for every value and every limit of at least 44, the result of
    [_hashObj] is no longer than the limit: it is the string form of the
    value when that fits, and otherwise the first [limit - 44]
    characters of the string form followed by the 44-character base64
    SHA-256 hash of the string form. *)
Theorem hashObj_bounded (opts : CacherOptions) (m : Z) (v : value) :
  maxKeyLength opts = Some m ->
  44 <= m ->
  let key := _generateKeyFromObject v in
  let hash := Crypto.sha256_base64 key in
  Z.of_nat (String.length (_hashObj opts v)) <= m /\
  String.length hash = 44%nat /\
  ((Z.of_nat (String.length key) <= m /\ _hashObj opts v = key) \/
   (m < Z.of_nat (String.length key) /\
    _hashObj opts v = substring 0 (Z.to_nat (m - 44)) key ++ hash)).
Proof.
  intros Hm Hge key hash.
  assert (Hh : String.length hash = 44%nat) by apply sha256_base64_length.
  rewrite hashObj_unfold. unfold effective_maxKeyLength. rewrite Hm.
  destruct (Z.eqb_spec m 0) as [?|_]; [lia|].
  cbv zeta. fold key. fold hash.
  destruct (Z.ltb_spec m 44) as [?|_]; [lia|]. simpl orb.
  destruct (Z.leb_spec (Z.of_nat (String.length key)) m) as [Hfit|Hlong].
  - split; [exact Hfit|]. split; [exact Hh|]. left. now split.
  - destruct (Z.ltb_spec (m - 44) 1) as [Hp|Hp].
    + assert (m = 44) by lia. subst m.
      split; [rewrite Hh; lia|]. split; [exact Hh|].
      right. split; [exact Hlong|].
      change (Z.to_nat (44 - 44)) with 0%nat. now rewrite substring0_nothing.
    + split; [|split; [exact Hh | right; now split]].
      rewrite length_append, length_substring0 by lia. lia.
Qed.

Lemma hashObj_bounded_witness :
  Z.of_nat (String.length (_hashObj (with_maxKeyLength 50) long_params)) <= 50 /\
  _hashObj (with_maxKeyLength 50) long_params
    = "name|a" ++ "DFeaucuxLHS5MASNtsZS7QtSgTIhTEuXr1E0ouyWi2A=".
Proof.
  assert (Hge : 44 <= 50) by lia.
  destruct (hashObj_bounded (with_maxKeyLength 50) 50 long_params eq_refl Hge)
    as [Hlen [_ [[Hfit _] | [_ Heq]]]].
  - vm_compute in Hfit. contradiction Hfit. reflexivity.
  - split; [exact Hlen | rewrite Heq; vm_compute; reflexivity].
Defined.

(** C8: whenever the string form of a value is no longer than the
    configured limit, [_hashObj] returns that string form. *)
Theorem hashObj_roundtrip (opts : CacherOptions) (m : Z) (v : value) :
  maxKeyLength opts = Some m ->
  Z.of_nat (String.length (_generateKeyFromObject v)) <= m ->
  _hashObj opts v = _generateKeyFromObject v.
Proof.
  intros Hm Hfit.
  rewrite hashObj_unfold. unfold effective_maxKeyLength. rewrite Hm.
  cbv zeta.
  destruct (Z.eqb_spec m 0) as [->|_].
  - destruct (Z.leb_spec (Z.of_nat (String.length (_generateKeyFromObject v))) 44);
      [now rewrite orb_true_r | lia].
  - destruct (Z.leb_spec (Z.of_nat (String.length (_generateKeyFromObject v))) m);
      [now rewrite orb_true_r | lia].
Qed.

Lemma hashObj_roundtrip_witness :
  _hashObj (with_maxKeyLength 54) long_params
    = "name|a-rather-long-user-name|email|someone@example.com".
Proof.
  rewrite (hashObj_roundtrip (with_maxKeyLength 54) 54 long_params);
    [reflexivity | reflexivity | vm_compute; discriminate].
Defined.

(* ================================================================== *)
(** ** KeyGenerator: [getParamMetaValue] and [defaultKeygen]          *)
(* ================================================================== *)

(** With metadata at hand, a [#] selector is resolved in the metadata,
    prefix removed, and the parameters play no part. *)
Lemma getParamMetaValue_meta (key : string) (params meta : value) :
  startsWith "#" key = true ->
  nullish meta = false ->
  getParamMetaValue key params meta = Lodash.get meta (slice1 key).
Proof.
  intros Hk Hm. unfold getParamMetaValue. now rewrite Hk, Hm.
Qed.

(** Without metadata the same selector is handed, prefix and all, to
    the lookup in the parameters. *)
Lemma getParamMetaValue_no_meta (key : string) (params meta : value) :
  nullish meta = true ->
  getParamMetaValue key params meta
  = if nullish params then VUndefined else Lodash.get params key.
Proof.
  intros Hm. unfold getParamMetaValue. rewrite Hm, andb_false_r.
  now destruct (nullish params).
Qed.

(** C6: the claim wants [undefined] for every [#] selector when the
    metadata is missing; the code reads the parameters under the full
    selector instead, and finds the property named ["#user"]. *)
Theorem getParamMetaValue_hash_selector_reads_params :
  startsWith "#" "#user" = true /\
  getParamMetaValue "#user" (VObj [("#user", VNum 1)]) VNull = VNum 1 /\
  getParamMetaValue "#user" (VObj [("#user", VNum 1)]) VNull <> VUndefined.
Proof.
  split; [reflexivity|]. split; [reflexivity | discriminate].
Qed.

(** C1, as stated, fails: an empty list is truthy, so the branch for a
    given [keys] is entered, neither length test holds, and the action
    name alone is returned; without [keys] the parameters are hashed. *)
Lemma defaultKeygen_empty_keys_differs :
  nullish (VObj [("a", VNum 1)]) = false /\
  defaultKeygen default_opts "list" (VObj [("a", VNum 1)]) VNull (Some []) = "list" /\
  defaultKeygen default_opts "list" (VObj [("a", VNum 1)]) VNull None = "list:a|1" /\
  defaultKeygen default_opts "list" (VObj [("a", VNum 1)]) VNull (Some [])
    <> defaultKeygen default_opts "list" (VObj [("a", VNum 1)]) VNull None.
Proof.
  split; [reflexivity|]. split; [reflexivity|]. split; [reflexivity | discriminate].
Qed.

(** C1 (amended): with [keys] an explicit empty list [defaultKeygen]
    returns the action name alone, whatever the parameters and the
    metadata are; it is with [keys] absent that it returns the action
    name, a colon and the hash of the whole parameters (when one of
    parameters and metadata is truthy). *)
Theorem defaultKeygen_empty_keys (opts : CacherOptions) (actionName : string)
    (params meta : value) :
  defaultKeygen opts actionName params meta (Some []) = actionName /\
  defaultKeygen opts actionName params meta None
  = if truthy params || truthy meta
    then (actionName ++ ":") ++ _hashObj opts params
    else actionName.
Proof.
  unfold defaultKeygen.
  destruct (truthy params || truthy meta); split; reflexivity.
Qed.

(** C7: the three scenarios of the key generator. *)
Theorem defaultKeygen_scenarios (opts : CacherOptions) :
  defaultKeygen opts "get" (VObj [("id", VNum 5)]) VNull (Some ["id"]) = "get:5" /\
  defaultKeygen opts "get" (VObj [("id", VNum 5); ("name", VStr "x")]) VNull
    (Some ["id"; "name"]) = "get:5|x" /\
  defaultKeygen opts "get" VNull VNull None = "get".
Proof.
  split; [reflexivity|]. split; reflexivity.
Qed.

(** C10: the string form is not injective, the separator being left
    unescaped: a sequence and a plain string, and two objects of
    different shape, have the same string form, and the two objects
    yield the same unhashed cache key. *)
Theorem generateKeyFromObject_not_injective :
  (exists v w : value, v <> w /\ _generateKeyFromObject v = _generateKeyFromObject w) /\
  VArr [VStr "a"; VStr "b"] <> VStr "a|b" /\
  _generateKeyFromObject (VArr [VStr "a"; VStr "b"]) = "a|b" /\
  _generateKeyFromObject (VStr "a|b") = "a|b" /\
  VObj [("a", VStr "1|b"); ("c", VNum 2)]
    <> VObj [("a", VNum 1); ("b", VObj [("c", VNum 2)])] /\
  _generateKeyFromObject (VObj [("a", VStr "1|b"); ("c", VNum 2)]) = "a|1|b|c|2" /\
  _generateKeyFromObject (VObj [("a", VNum 1); ("b", VObj [("c", VNum 2)])]) = "a|1|b|c|2" /\
  defaultKeygen default_opts "get" (VObj [("a", VStr "1|b"); ("c", VNum 2)]) VNull None
    = "get:a|1|b|c|2" /\
  defaultKeygen default_opts "get" (VObj [("a", VNum 1); ("b", VObj [("c", VNum 2)])]) VNull None
    = "get:a|1|b|c|2".
Proof.
  split.
  { exists (VArr [VStr "a"; VStr "b"]), (VStr "a|b"). split; [discriminate | reflexivity]. }
  split; [discriminate|]. split; [reflexivity|]. split; [reflexivity|].
  split; [discriminate|]. split; [reflexivity|]. split; [reflexivity|].
  split; reflexivity.
Qed.

(* ================================================================== *)
(** ** CacheMiddleware                                                 *)
(* ================================================================== *)

Section Middleware.

Context {World : Type}.
Variable this : Cacher World.
Variable handler : Handler World.
Variable action : Action.

(** C9: for an action without cache settings the middleware hands the
    handler back as it is; run under observation, the only call is
    the handler's own, and outcome, context and world are the
    handler's. *)
Theorem middleware_without_cache :
  cache action = None ->
  middleware this handler action = handler /\
  forall (ctx : Ctx) (w : World),
    middleware (spy_cacher this) (spy_handler handler) action ctx (w, [])
    = let '(r, ctx', w') := handler ctx w in (r, ctx', (w', [HandlerCall ctx])).
Proof.
  intros Hnone. unfold middleware. rewrite Hnone. split; reflexivity.
Qed.

Variable cfg : CacheConfig.
Hypothesis Hcache : cache action = Some cfg.

(** The wrapped handler, case by case on what [get] and the handler
    answer. *)
Lemma middleware_get_throws (ctx : Ctx) (w w1 : World) (e : error) :
  let cacheKey :=
    getCacheKey (opts this) (name action) (params ctx) (meta ctx) (cache_keys cfg) in
  get this cacheKey w = (Throw e, w1) ->
  middleware this handler action ctx w = (Throw e, ctx, w1).
Proof.
  intros cacheKey Hget. unfold middleware. rewrite Hcache.
  fold cacheKey. now rewrite Hget.
Qed.

Lemma middleware_hit (ctx : Ctx) (w w1 : World) (content : value) :
  let cacheKey :=
    getCacheKey (opts this) (name action) (params ctx) (meta ctx) (cache_keys cfg) in
  get this cacheKey w = (Return (Resolved content), w1) ->
  nullish content = false ->
  middleware this handler action ctx w
  = (Return (Resolved content), set_cachedResult true ctx, w1).
Proof.
  intros cacheKey Hget Hc. unfold middleware. rewrite Hcache.
  fold cacheKey. rewrite Hget. simpl. now rewrite Hc.
Qed.

Lemma middleware_miss (ctx : Ctx) (w w1 : World) (content : value) :
  let cacheKey :=
    getCacheKey (opts this) (name action) (params ctx) (meta ctx) (cache_keys cfg) in
  get this cacheKey w = (Return (Resolved content), w1) ->
  nullish content = true ->
  middleware this handler action ctx w
  = match handler ctx w1 with
    | (Throw e, ctx2, w2) => (Return (Rejected e), ctx2, w2)
    | (Return (Rejected e), ctx2, w2) => (Return (Rejected e), ctx2, w2)
    | (Return (Resolved result), ctx2, w2) =>
        match set this cacheKey result (cache_ttl cfg) w2 with
        | (Throw e, w3) => (Return (Rejected e), ctx2, w3)
        | (Return _, w3) => (Return (Resolved result), ctx2, w3)
        end
    end.
Proof.
  intros cacheKey Hget Hc. unfold middleware. rewrite Hcache.
  fold cacheKey. rewrite Hget. simpl. rewrite Hc. simpl.
  destruct (handler ctx w1) as [[[e | [result | e]] ctx2] w2]; simpl; try reflexivity.
  destruct (set this cacheKey result (cache_ttl cfg) w2) as [[e | p] w3]; reflexivity.
Qed.

(** C4 (amended): on a cache miss whose handler succeeds, a [set]
    that fails through the promise it returns does not fail the
    invocation, which resolves with the handler's result whether that
    promise resolves or rejects; a [set] call that throws makes the
    invocation reject with the thrown error. *)
Theorem middleware_set_failure (ctx ctx2 : Ctx) (w w1 w2 w3 : World)
    (content result : value) (r : completion) :
  let cacheKey :=
    getCacheKey (opts this) (name action) (params ctx) (meta ctx) (cache_keys cfg) in
  get this cacheKey w = (Return (Resolved content), w1) ->
  nullish content = true ->
  handler ctx w1 = (Return (Resolved result), ctx2, w2) ->
  set this cacheKey result (cache_ttl cfg) w2 = (r, w3) ->
  middleware this handler action ctx w
  = (match r with
     | Return _ => Return (Resolved result)
     | Throw e => Return (Rejected e)
     end, ctx2, w3).
Proof.
  intros cacheKey Hget Hc Hh Hset.
  rewrite (middleware_miss ctx w w1 content Hget Hc). fold cacheKey.
  rewrite Hh, Hset. now destruct r.
Qed.

End Middleware.

Lemma middleware_without_cache_witness :
  middleware memory_cacher (const_handler (VStr "created")) plain_action
    = const_handler (VStr "created") /\
  middleware (spy_cacher memory_cacher) (spy_handler (const_handler (VStr "created")))
    plain_action ctx_id5 ([], [])
    = (Return (Resolved (VStr "created")), ctx_id5, ([], [HandlerCall ctx_id5])).
Proof.
  destruct (middleware_without_cache memory_cacher (const_handler (VStr "created"))
              plain_action eq_refl) as [Hsame Hrun].
  split; [exact Hsame | exact (Hrun ctx_id5 [])].
Defined.

(** C4, as stated, fails: a backend of its own, a store with room for
    one entry, stores while it has room and throws from [set] once it
    is full; on a miss with the store full the handler succeeds and yet
    the invocation is rejected. *)
Lemma middleware_full_store_fails_invocation :
  set (bounded_cacher 1) "users.get:id|9" (VStr "zoe") (VNum 30) []
    = (Return (Resolved VUndefined), [("users.get:id|9", VStr "zoe")]) /\
  get (bounded_cacher 1) "users.get:id|5" [("users.get:id|9", VStr "zoe")]
    = (Return (Resolved VNull), [("users.get:id|9", VStr "zoe")]) /\
  const_handler (VStr "alice") ctx_id5 ([("users.get:id|9", VStr "zoe")] : Store)
    = (Return (Resolved (VStr "alice")), ctx_id5, [("users.get:id|9", VStr "zoe")]) /\
  middleware (bounded_cacher 1) (const_handler (VStr "alice")) cached_action ctx_id5
    [("users.get:id|9", VStr "zoe")]
    = (Return (Rejected "cache is full"), ctx_id5, [("users.get:id|9", VStr "zoe")]) /\
  fst (fst (middleware (bounded_cacher 1) (const_handler (VStr "alice")) cached_action
              ctx_id5 [("users.get:id|9", VStr "zoe")]))
    <> Return (Resolved (VStr "alice")).
Proof.
  split; [reflexivity|]. split; [reflexivity|]. split; [reflexivity|].
  split; [reflexivity | discriminate].
Qed.

Lemma middleware_set_failure_witness :
  middleware failing_writes_cacher (const_handler (VStr "alice")) cached_action ctx_id5 []
    = (Return (Resolved (VStr "alice")), ctx_id5, []).
Proof.
  exact (middleware_set_failure failing_writes_cacher (const_handler (VStr "alice"))
           cached_action {| cache_keys := None; cache_ttl := VNum 30 |} eq_refl
           ctx_id5 ctx_id5 [] [] [] [] VNull (VStr "alice")
           (Return (Rejected "connection lost")) eq_refl eq_refl eq_refl eq_refl).
Defined.

(** C2, as stated, fails in its last part: on the store with room for
    two entries, both taken, the miss runs as described (one [get], one
    handler call on the untouched context, one [set] with the handler's
    result), but [set] throws and the result is not what the invocation
    returns. *)
Lemma middleware_miss_result_lost :
  get (bounded_cacher 2) "users.get:id|7"
    [("users.get:id|9", VStr "zoe"); ("users.get:id|5", VStr "alice")]
    = (Return (Resolved VNull),
       [("users.get:id|9", VStr "zoe"); ("users.get:id|5", VStr "alice")]) /\
  const_handler (VStr "bob") ctx_id7
    ([("users.get:id|9", VStr "zoe"); ("users.get:id|5", VStr "alice")] : Store)
    = (Return (Resolved (VStr "bob")), ctx_id7,
       [("users.get:id|9", VStr "zoe"); ("users.get:id|5", VStr "alice")]) /\
  middleware (spy_cacher (bounded_cacher 2)) (spy_handler (const_handler (VStr "bob")))
    cached_action ctx_id7
    ([("users.get:id|9", VStr "zoe"); ("users.get:id|5", VStr "alice")], [])
    = (Return (Rejected "cache is full"), ctx_id7,
       ([("users.get:id|9", VStr "zoe"); ("users.get:id|5", VStr "alice")],
        [GetCall "users.get:id|7"; HandlerCall ctx_id7;
         SetCall "users.get:id|7" (VStr "bob") (VNum 30)])) /\
  fst (fst (middleware (spy_cacher (bounded_cacher 2))
              (spy_handler (const_handler (VStr "bob"))) cached_action ctx_id7
              ([("users.get:id|9", VStr "zoe"); ("users.get:id|5", VStr "alice")], [])))
    <> Return (Resolved (VStr "bob")).
Proof.
  split; [reflexivity|]. split; [reflexivity|]. split; [reflexivity | discriminate].
Qed.

(** C2 (amended): for an action with cache settings, run under
    observation.  If [get] answers with content that is not null, the
    handler is not called, the context leaves with [cachedResult] true
    and the content is returned.  If [get] answers null and the handler
    yields a result, the handler has been called once, on the context
    as it came in, [set] has been called once with the key, that result
    and the configured ttl, and the result is returned provided the
    [set] call itself returns. *)
Theorem middleware_hit_or_miss {World : Type} (this : Cacher World)
    (handler : Handler World) (action : Action) (cfg : CacheConfig)
    (ctx : Ctx) (w w1 : World) (content : value) :
  cache action = Some cfg ->
  let cacheKey :=
    getCacheKey (opts this) (name action) (params ctx) (meta ctx) (cache_keys cfg) in
  let run := middleware (spy_cacher this) (spy_handler handler) action ctx (w, []) in
  get this cacheKey w = (Return (Resolved content), w1) ->
  (nullish content = false ->
     run = (Return (Resolved content), set_cachedResult true ctx, (w1, [GetCall cacheKey])) /\
     cachedResult (snd (fst run)) = true) /\
  (nullish content = true ->
     forall (result : value) (ctx2 : Ctx) (w2 w3 : World) (r : completion),
       handler ctx w1 = (Return (Resolved result), ctx2, w2) ->
       set this cacheKey result (cache_ttl cfg) w2 = (r, w3) ->
       snd run = (w3, [GetCall cacheKey; HandlerCall ctx;
                       SetCall cacheKey result (cache_ttl cfg)]) /\
       snd (fst run) = ctx2 /\
       (forall p : settled, r = Return p -> fst (fst run) = Return (Resolved result))).
Proof.
  intros Hcache cacheKey run Hget.
  assert (Hget' : get (spy_cacher this) cacheKey (w, [])
                  = (Return (Resolved content), (w1, [GetCall cacheKey]))).
  { simpl. now rewrite Hget. }
  split.
  - intros Hc.
    assert (Hrun : run = (Return (Resolved content), set_cachedResult true ctx,
                          (w1, [GetCall cacheKey]))).
    { exact (middleware_hit (spy_cacher this) (spy_handler handler) action cfg Hcache
               ctx (w, []) (w1, [GetCall cacheKey]) content Hget' Hc). }
    split; [exact Hrun | now rewrite Hrun].
  - intros Hc result ctx2 w2 w3 r Hh Hset.
    assert (Hrun : run = (match r with
                          | Return _ => Return (Resolved result)
                          | Throw e => Return (Rejected e)
                          end, ctx2,
                          (w3, [GetCall cacheKey; HandlerCall ctx;
                                SetCall cacheKey result (cache_ttl cfg)]))).
    { unfold run.
      rewrite (middleware_miss (spy_cacher this) (spy_handler handler) action cfg Hcache
                 ctx (w, []) (w1, [GetCall cacheKey]) content Hget' Hc).
      simpl. rewrite Hh. fold cacheKey. simpl. rewrite Hset. now destruct r. }
    rewrite Hrun. split; [reflexivity|]. split; [reflexivity|].
    intros p ->. reflexivity.
Qed.

Lemma middleware_hit_or_miss_witness :
  (middleware (spy_cacher memory_cacher) (spy_handler (const_handler (VStr "fresh")))
     cached_action ctx_id5 ([("users.get:id|5", VStr "alice")], [])
   = (Return (Resolved (VStr "alice")), set_cachedResult true ctx_id5,
      ([("users.get:id|5", VStr "alice")], [GetCall "users.get:id|5"]))) /\
  (snd (middleware (spy_cacher memory_cacher) (spy_handler (const_handler (VStr "fresh")))
          cached_action ctx_id5 ([], []))
   = ([("users.get:id|5", VStr "fresh")],
      [GetCall "users.get:id|5"; HandlerCall ctx_id5;
       SetCall "users.get:id|5" (VStr "fresh") (VNum 30)])) /\
  (fst (fst (middleware (spy_cacher memory_cacher)
               (spy_handler (const_handler (VStr "fresh"))) cached_action ctx_id5 ([], [])))
   = Return (Resolved (VStr "fresh"))).
Proof.
  split.
  - exact (proj1 (proj1 (middleware_hit_or_miss memory_cacher
                           (const_handler (VStr "fresh")) cached_action
                           {| cache_keys := None; cache_ttl := VNum 30 |}
                           ctx_id5 [("users.get:id|5", VStr "alice")]
                           [("users.get:id|5", VStr "alice")] (VStr "alice")
                           eq_refl eq_refl) eq_refl)).
  - destruct (proj2 (middleware_hit_or_miss memory_cacher
                       (const_handler (VStr "fresh")) cached_action
                       {| cache_keys := None; cache_ttl := VNum 30 |}
                       ctx_id5 [] [] VNull eq_refl eq_refl) eq_refl
                (VStr "fresh") ctx_id5 [] [("users.get:id|5", VStr "fresh")]
                (Return (Resolved VUndefined)) eq_refl eq_refl) as [Hlog [_ Hres]].
    split; [exact Hlog | exact (Hres (Resolved VUndefined) eq_refl)].
Defined.

(* ================================================================== *)
(** ** Further properties of the key generator                         *)
(* ================================================================== *)

Lemma append_assoc (s t u : string) : (s ++ t) ++ u = s ++ (t ++ u).
Proof. induction s as [|c s IH]; simpl; [reflexivity | now rewrite IH]. Qed.

Lemma append_empty_r (s : string) : s ++ "" = s.
Proof. induction s as [|c s IH]; simpl; [reflexivity | now rewrite IH]. Qed.

Lemma prefix_append (s t : string) : String.prefix s (s ++ t) = true.
Proof.
  induction s as [|c s IH]; simpl; [now destruct t|].
  destruct (ascii_dec c c) as [_|Hc]; [exact IH | now elim Hc].
Qed.

Lemma prefix_self (s : string) : String.prefix s s = true.
Proof. rewrite <- (append_empty_r s) at 2. apply prefix_append. Qed.

Lemma join_cons2 (sep x y : string) (l : list string) :
  join sep (x :: y :: l) = x ++ sep ++ join sep (y :: l).
Proof. reflexivity. Qed.

Lemma join_app (sep : string) (l1 l2 : list string) :
  l1 <> [] -> l2 <> [] ->
  join sep (l1 ++ l2)%list = join sep l1 ++ sep ++ join sep l2.
Proof.
  intros H1 H2. induction l1 as [|x l1 IH]; [now elim H1|].
  destruct l1 as [|y l1].
  - destruct l2 as [|z l2]; [now elim H2 | reflexivity].
  - change ((x :: y :: l1) ++ l2)%list with (x :: y :: (l1 ++ l2))%list.
    rewrite !join_cons2.
    change (y :: (l1 ++ l2))%list with ((y :: l1) ++ l2)%list.
    rewrite IH by discriminate. now rewrite !append_assoc.
Qed.

(** The callback [defaultKeygen] hands to [reduce]. *)
Lemma reduce_keys (opts : CacherOptions) (params meta : value) (keys : list string) :
  forall (i : nat) (acc part : string),
    reduce (fun a key i =>
              let val := getParamMetaValue key params meta in
              (a ++ (if Nat.eqb i 0 then "" else "|"))
                ++ (if Lodash.isObject val || isArray val
                    then _hashObj opts val else toString val))
           keys (S i) (acc ++ part)
    = acc ++ join "|" (part :: map (keyPart opts params meta) keys).
Proof.
  set (F := fun (a key : string) (i : nat) => _).
  assert (HF : forall a k i, F a k (S i) = (a ++ "|") ++ keyPart opts params meta k).
  { intros a k i. unfold F, keyPart. cbv zeta.
    now destruct (getParamMetaValue k params meta). }
  induction keys as [|k keys IH]; intros i acc part; [reflexivity|].
  cbn [reduce map]. rewrite join_cons2, HF.
  rewrite (IH (S i) ((acc ++ part) ++ "|") (keyPart opts params meta k)).
  now rewrite !append_assoc.
Qed.

(** With a non-empty [keys] the key is the action name, a colon, and
    the texts of the selected fields joined by bars, on the fast path
    for one selector as on the [reduce] path for several. *)
Lemma defaultKeygen_nonempty (opts : CacherOptions) (actionName : string)
    (params meta : value) (keys : list string) :
  truthy params || truthy meta = true ->
  keys <> [] ->
  defaultKeygen opts actionName params meta (Some keys)
  = (actionName ++ ":") ++ join "|" (map (keyPart opts params meta) keys).
Proof.
  intros Ht Hne. unfold defaultKeygen. rewrite Ht.
  destruct keys as [|k [|k2 keys]]; [now elim Hne | reflexivity |].
  change (Nat.eqb (List.length (k :: k2 :: keys)) 1) with false.
  change (Nat.ltb 0 (List.length (k :: k2 :: keys))) with true.
  cbv beta iota.
  set (F := fun (a key : string) (i : nat) => _).
  assert (HF : F (actionName ++ ":") k 0%nat
               = (actionName ++ ":") ++ keyPart opts params meta k).
  { unfold F, keyPart. cbv zeta. change (Nat.eqb 0 0) with true. cbv iota.
    rewrite append_empty_r. now destruct (getParamMetaValue k params meta). }
  cbv zeta. cbn [reduce]. rewrite HF.
  exact (reduce_keys opts params meta (k2 :: keys) 0 (actionName ++ ":")
           (keyPart opts params meta k)).
Qed.

Lemma getParamMetaValue_own_param (k : string) (props : list (string * value))
    (meta v : value) :
  startsWith "#" k = false ->
  assoc k props = Some v ->
  getParamMetaValue k (VObj props) meta = v.
Proof.
  intros Hk Hv. unfold getParamMetaValue. rewrite Hk. simpl.
  unfold Lodash.get, Lodash.castPath. simpl. rewrite Hv. simpl.
  unfold prop. simpl. now rewrite Hv.
Qed.

Lemma getParamMetaValue_own_meta (k : string) (mprops : list (string * value))
    (params v : value) :
  assoc k mprops = Some v ->
  getParamMetaValue ("#" ++ k) params (VObj mprops) = v.
Proof.
  intros Hv. unfold getParamMetaValue.
  assert (Hk : startsWith "#" ("#" ++ k) = true) by now destruct k.
  rewrite Hk. simpl.
  unfold Lodash.get, Lodash.castPath. simpl. rewrite Hv. simpl.
  unfold prop. simpl. now rewrite Hv.
Qed.

Lemma getParamMetaValue_absent_param (k : string) (props : list (string * value))
    (meta : value) :
  startsWith "#" k = false ->
  assoc k props = None ->
  Lodash.stringToPath k = [k] ->
  getParamMetaValue k (VObj props) meta = VUndefined.
Proof.
  intros Hk Hv Hpath. unfold getParamMetaValue. rewrite Hk. simpl.
  unfold Lodash.get, Lodash.castPath. simpl. rewrite Hv, Hpath. simpl.
  unfold prop. simpl. now rewrite Hv.
Qed.

(** X1: for a non-empty selector list (and params or meta truthy) the
    key is the action name, a colon, and the texts of the selected
    fields, in list order, joined by bars; one selector or several. *)
Theorem defaultKeygen_keys_join (opts : CacherOptions) (actionName : string)
    (params meta : value) (keys : list string) :
  truthy params || truthy meta = true ->
  keys <> [] ->
  defaultKeygen opts actionName params meta (Some keys)
  = (actionName ++ ":") ++ join "|" (map (keyPart opts params meta) keys).
Proof. exact (defaultKeygen_nonempty opts actionName params meta keys). Qed.

Lemma defaultKeygen_keys_join_witness :
  defaultKeygen default_opts "users.find"
    (VObj [("name", VStr "ann"); ("page", VNum 2); ("sort", VArr [VStr "age"; VStr "id"])])
    (VObj [("tenant", VStr "acme")]) (Some ["#tenant"; "name"; "sort"; "page"])
  = "users.find:acme|ann|age|id|2".
Proof.
  rewrite defaultKeygen_keys_join; [reflexivity | reflexivity | discriminate].
Defined.

(** X2: whatever the inputs, the key of the default generator begins
    with the action name. *)
Theorem defaultKeygen_starts_with_actionName (opts : CacherOptions)
    (actionName : string) (params meta : value) (keys : option (list string)) :
  String.prefix actionName (defaultKeygen opts actionName params meta keys) = true.
Proof.
  destruct (truthy params || truthy meta) eqn:Ht.
  - destruct keys as [[|k ks]|].
    + unfold defaultKeygen. rewrite Ht. apply prefix_self.
    + rewrite defaultKeygen_nonempty by (assumption || discriminate).
      rewrite append_assoc. apply prefix_append.
    + unfold defaultKeygen. rewrite Ht. rewrite append_assoc. apply prefix_append.
  - unfold defaultKeygen. rewrite Ht. apply prefix_self.
Qed.

(** X3: when the parameters are truthy and no selector begins with a
    hash sign (or no selectors are given), the metadata has no
    influence on the key. *)
Theorem defaultKeygen_ignores_meta (opts : CacherOptions) (actionName : string)
    (params meta meta' : value) (keys : option (list string)) :
  truthy params = true ->
  (forall ks k, keys = Some ks -> In k ks -> startsWith "#" k = false) ->
  defaultKeygen opts actionName params meta keys
  = defaultKeygen opts actionName params meta' keys.
Proof.
  intros Ht Hsel.
  destruct keys as [[|k ks]|].
  - unfold defaultKeygen. now rewrite Ht.
  - rewrite !defaultKeygen_nonempty by (now rewrite ?Ht || discriminate).
    f_equal. f_equal. apply map_ext_in. intros k' Hin.
    unfold keyPart, getParamMetaValue.
    now rewrite (Hsel (k :: ks) k' eq_refl Hin).
  - unfold defaultKeygen. now rewrite Ht.
Qed.

Lemma defaultKeygen_ignores_meta_witness :
  defaultKeygen default_opts "get" (VObj [("id", VNum 5)])
    (VObj [("user", VStr "ann")]) (Some ["id"])
  = defaultKeygen default_opts "get" (VObj [("id", VNum 5)])
      (VObj [("user", VStr "bob")]) (Some ["id"]).
Proof.
  apply defaultKeygen_ignores_meta; [reflexivity|].
  intros ks k Hks Hin. injection Hks as <-.
  destruct Hin as [<-|[]]. reflexivity.
Defined.

Lemma stringToPath_plain (k : string) :
  Lodash.plain_name k = true -> Lodash.stringToPath k = [k].
Proof.
  induction k as [|c k IH]; [reflexivity|].
  cbn [Lodash.plain_name Lodash.stringToPath]. intros H.
  apply andb_true_iff in H as [H Hk].
  apply andb_true_iff in H as [H _]. apply andb_true_iff in H as [H _].
  apply negb_true_iff in H. rewrite H. now rewrite (IH Hk).
Qed.

Lemma hasProperty_none (props : list (string * value)) (k : string) :
  hasProperty props k = false -> assoc k props = None /\ inherited k = false.
Proof.
  unfold hasProperty. destruct (assoc k props); [discriminate | now split].
Qed.

(** X4: a selector without hash sign, dot or bracket that names no
    property of the parameters, neither one of their own nor one they
    inherit, puts the text "undefined" into the key. *)
Theorem defaultKeygen_missing_field (opts : CacherOptions) (actionName k : string)
    (props : list (string * value)) (meta : value) :
  startsWith "#" k = false ->
  Lodash.plain_name k = true ->
  hasProperty props k = false ->
  defaultKeygen opts actionName (VObj props) meta (Some [k])
  = actionName ++ ":undefined".
Proof.
  intros Hk Hplain Hnone.
  destruct (hasProperty_none props k Hnone) as [Hv _].
  rewrite defaultKeygen_nonempty by (reflexivity || discriminate).
  cbn [map join]. unfold keyPart.
  rewrite (getParamMetaValue_absent_param k props meta Hk Hv (stringToPath_plain k Hplain)).
  cbn. now rewrite append_assoc.
Qed.

Example missing_field_conditions :
  hasProperty [("id", VNum 5)] "name" = false /\
  hasProperty [("id", VNum 5)] "constructor" = true /\
  Lodash.plain_name "a[0]" = false /\
  Lodash.plain_name "user.id" = false.
Proof. repeat split. Qed.

Lemma defaultKeygen_missing_field_witness :
  defaultKeygen default_opts "get" (VObj [("id", VNum 5)]) VNull (Some ["name"])
  = "get:undefined".
Proof.
  exact (defaultKeygen_missing_field default_opts "get" "name" [("id", VNum 5)] VNull
           eq_refl eq_refl eq_refl).
Defined.

(** X5: a single selector without hash sign that names a property of
    the parameters yields the action name, a colon and that property:
    hashed when it is an object or an array, as a string otherwise. *)
Theorem defaultKeygen_param_field (opts : CacherOptions) (actionName k : string)
    (props : list (string * value)) (meta v : value) :
  startsWith "#" k = false ->
  assoc k props = Some v ->
  defaultKeygen opts actionName (VObj props) meta (Some [k])
  = (actionName ++ ":") ++ (if Lodash.isObject v then _hashObj opts v else toString v).
Proof.
  intros Hk Hv.
  rewrite defaultKeygen_nonempty by (reflexivity || discriminate).
  cbn [map join]. unfold keyPart.
  now rewrite (getParamMetaValue_own_param k props meta v Hk Hv).
Qed.

Lemma defaultKeygen_param_field_witness :
  defaultKeygen default_opts "get"
    (VObj [("id", VNum 5); ("filter", VObj [("age", VNum 30)])]) VNull (Some ["filter"])
  = "get:age|30".
Proof.
  rewrite (defaultKeygen_param_field default_opts "get" "filter"
             [("id", VNum 5); ("filter", VObj [("age", VNum 30)])] VNull
             (VObj [("age", VNum 30)]) eq_refl eq_refl).
  reflexivity.
Defined.

(** X6: a single selector with hash sign that names a property of the
    metadata yields the action name, a colon and that property, also
    when the parameters are null. *)
Theorem defaultKeygen_meta_field (opts : CacherOptions) (actionName k : string)
    (mprops : list (string * value)) (params v : value) :
  assoc k mprops = Some v ->
  defaultKeygen opts actionName params (VObj mprops) (Some ["#" ++ k])
  = (actionName ++ ":") ++ (if Lodash.isObject v then _hashObj opts v else toString v).
Proof.
  intros Hv.
  rewrite defaultKeygen_nonempty by (apply orb_true_r || discriminate).
  cbn [map join]. unfold keyPart.
  now rewrite (getParamMetaValue_own_meta k mprops params v Hv).
Qed.

Lemma defaultKeygen_meta_field_witness :
  defaultKeygen default_opts "profile" VNull (VObj [("user", VStr "ann")]) (Some ["#user"])
  = "profile:ann".
Proof.
  exact (defaultKeygen_meta_field default_opts "profile" "user"
           [("user", VStr "ann")] VNull (VStr "ann") eq_refl).
Defined.

(** X7: the bar between the fields of a key is not escaped: moving a
    bar and the text after it from the end of one string field to the
    front of the next changes the parameters but not the key. *)
Theorem defaultKeygen_separator_collision (opts : CacherOptions)
    (actionName s t u : string) :
  VObj [("a", VStr (s ++ "|" ++ t)); ("b", VStr u)]
    <> VObj [("a", VStr s); ("b", VStr (t ++ "|" ++ u))] /\
  defaultKeygen opts actionName
    (VObj [("a", VStr (s ++ "|" ++ t)); ("b", VStr u)]) VNull (Some ["a"; "b"])
  = defaultKeygen opts actionName
      (VObj [("a", VStr s); ("b", VStr (t ++ "|" ++ u))]) VNull (Some ["a"; "b"]).
Proof.
  split.
  - intros Heq. injection Heq as Hs _.
    apply (f_equal String.length) in Hs.
    rewrite !length_append in Hs. simpl in Hs. lia.
  - rewrite !defaultKeygen_nonempty by (reflexivity || discriminate).
    f_equal. cbn. now rewrite !append_assoc.
Qed.

(* ================================================================== *)
(** ** Further properties of the key hasher                            *)
(* ================================================================== *)

Lemma hashObj_effective_bound (opts : CacherOptions) (v : value) :
  44 <= effective_maxKeyLength opts ->
  Z.of_nat (String.length (_hashObj opts v)) <= effective_maxKeyLength opts.
Proof.
  intros Hge. rewrite hashObj_unfold. cbv zeta.
  set (m := effective_maxKeyLength opts) in *.
  set (key := _generateKeyFromObject v).
  pose proof (sha256_base64_length key) as Hh.
  destruct (Z.ltb_spec m 44) as [?|_]; [lia|]. simpl orb.
  destruct (Z.leb_spec (Z.of_nat (String.length key)) m) as [Hfit|Hlong]; [exact Hfit|].
  destruct (Z.ltb_spec (m - 44) 1) as [Hp|Hp]; [rewrite Hh; lia|].
  rewrite length_append, length_substring0 by lia. lia.
Qed.

Lemma hashObj_hashed_length (opts : CacherOptions) (v : value) :
  44 <= effective_maxKeyLength opts ->
  effective_maxKeyLength opts < Z.of_nat (String.length (_generateKeyFromObject v)) ->
  Z.of_nat (String.length (_hashObj opts v)) = effective_maxKeyLength opts.
Proof.
  intros Hge Hlong. rewrite hashObj_unfold. cbv zeta.
  set (m := effective_maxKeyLength opts) in *.
  set (key := _generateKeyFromObject v) in *.
  pose proof (sha256_base64_length key) as Hh.
  destruct (Z.ltb_spec m 44) as [?|_]; [lia|]. simpl orb.
  destruct (Z.leb_spec (Z.of_nat (String.length key)) m) as [?|_]; [lia|].
  destruct (Z.ltb_spec (m - 44) 1) as [Hp|Hp]; [rewrite Hh; lia|].
  rewrite length_append, length_substring0 by lia. lia.
Qed.

(** X8: with [maxKeyLength] missing, null or 0 the limit is 44: no
    hashed object is longer than 44 characters, before and after the
    constructor has filled in the defaults. *)
Theorem hashObj_default_limit (o : CacherOptions) (v : value) :
  maxKeyLength o = None \/ maxKeyLength o = Some 0 ->
  (String.length (_hashObj o v) <= 44)%nat /\
  (String.length (_hashObj (constructor o) v) <= 44)%nat.
Proof.
  intros Hm.
  assert (H1 : effective_maxKeyLength o = 44).
  { unfold effective_maxKeyLength. now destruct Hm as [-> | ->]. }
  assert (H2 : effective_maxKeyLength (constructor o) = 44).
  { unfold effective_maxKeyLength, constructor. cbn [maxKeyLength].
    now destruct Hm as [-> | ->]. }
  pose proof (hashObj_effective_bound o v) as B1.
  pose proof (hashObj_effective_bound (constructor o) v) as B2.
  rewrite H1 in B1. rewrite H2 in B2. lia.
Qed.

Lemma hashObj_default_limit_witness :
  (String.length (_hashObj default_opts long_params) <= 44)%nat.
Proof.
  exact (proj2 (hashObj_default_limit
                  {| ttl := VUndefined; keygen := None; maxKeyLength := None |}
                  long_params (or_introl eq_refl))).
Defined.

(** X9: with a limit of at least 44, a string form that does not fit
    is replaced by a text of exactly the limit's length, so never by
    itself. *)
Theorem hashObj_hashed_exact_length (opts : CacherOptions) (m : Z) (v : value) :
  maxKeyLength opts = Some m ->
  44 <= m ->
  m < Z.of_nat (String.length (_generateKeyFromObject v)) ->
  Z.of_nat (String.length (_hashObj opts v)) = m /\
  _hashObj opts v <> _generateKeyFromObject v.
Proof.
  intros Hm Hge Hlong.
  assert (He : effective_maxKeyLength opts = m).
  { unfold effective_maxKeyLength. rewrite Hm.
    destruct (Z.eqb_spec m 0); [lia | reflexivity]. }
  pose proof (hashObj_hashed_length opts v) as Hlen. rewrite He in Hlen.
  specialize (Hlen Hge Hlong). split; [exact Hlen|].
  intros Heq. rewrite Heq in Hlen. lia.
Qed.

Lemma hashObj_hashed_exact_length_witness :
  Z.of_nat (String.length (_hashObj (with_maxKeyLength 50) long_params)) = 50.
Proof.
  assert (Hge : 44 <= 50) by lia.
  assert (Hlong : 50 < Z.of_nat (String.length (_generateKeyFromObject long_params)))
    by (vm_compute; reflexivity).
  exact (proj1 (hashObj_hashed_exact_length (with_maxKeyLength 50) 50 long_params
                  eq_refl Hge Hlong)).
Defined.

(** X10: the string form does not tell an object from the array of
    its names and values laid out in turn. *)
Theorem generateKeyFromObject_object_as_array (props : list (string * value)) :
  _generateKeyFromObject (VObj props) = _generateKeyFromObject (VArr (entries props)).
Proof.
  cbn [_generateKeyFromObject].
  induction props as [|[k v] props IH]; [reflexivity|].
  destruct props as [|[k' v'] props].
  - reflexivity.
  - cbn [map entries flat_map app] in *.
    rewrite join_cons2, IH. cbn [join].
    now rewrite !append_assoc.
Qed.

(** X11: nor does it tell an array whose first element is a non-empty
    array from the array with that element spliced in. *)
Theorem generateKeyFromObject_nested_array (l1 l2 : list value) :
  l1 <> [] ->
  _generateKeyFromObject (VArr (VArr l1 :: l2)) = _generateKeyFromObject (VArr (l1 ++ l2)).
Proof.
  intros Hne. cbn [_generateKeyFromObject map]. fold _generateKeyFromObject.
  rewrite map_app.
  destruct l2 as [|y l2].
  - now rewrite app_nil_r.
  - rewrite join_app; [reflexivity | | discriminate].
    destruct l1; [now elim Hne | discriminate].
Qed.

Lemma generateKeyFromObject_nested_array_witness :
  _generateKeyFromObject (VArr [VArr [VNum 1; VNum 2]; VNum 3])
  = _generateKeyFromObject (VArr [VNum 1; VNum 2; VNum 3]).
Proof.
  apply (generateKeyFromObject_nested_array [VNum 1; VNum 2] [VNum 3]). discriminate.
Defined.

(* ================================================================== *)
(** ** Further properties of the middleware                            *)
(* ================================================================== *)

Lemma middleware_get_rejects {World : Type} (this : Cacher World)
    (handler : Handler World) (action : Action) (cfg : CacheConfig)
    (ctx : Ctx) (w w1 : World) (e : error) :
  cache action = Some cfg ->
  let cacheKey :=
    getCacheKey (opts this) (name action) (params ctx) (meta ctx) (cache_keys cfg) in
  get this cacheKey w = (Return (Rejected e), w1) ->
  middleware this handler action ctx w = (Return (Rejected e), ctx, w1).
Proof.
  intros Hcache cacheKey Hget. unfold middleware. rewrite Hcache.
  fold cacheKey. now rewrite Hget.
Qed.

Section MiddlewareRuns.

Context {World : Type}.
Variable this : Cacher World.
Variable handler : Handler World.
Variable action : Action.
Variable cfg : CacheConfig.
Hypothesis Hcache : cache action = Some cfg.

(** The observed run, started with any log. *)
Lemma spied_get (key : string) (w w1 : World) (r : completion) (log : list call) :
  get this key w = (r, w1) ->
  get (spy_cacher this) key (w, log) = (r, (w1, (log ++ [GetCall key])%list)).
Proof. intros Hget. simpl. now rewrite Hget. Qed.

Lemma spied_hit (ctx : Ctx) (w w1 : World) (content : value) (log : list call) :
  let cacheKey :=
    getCacheKey (opts this) (name action) (params ctx) (meta ctx) (cache_keys cfg) in
  get this cacheKey w = (Return (Resolved content), w1) ->
  nullish content = false ->
  middleware (spy_cacher this) (spy_handler handler) action ctx (w, log)
  = (Return (Resolved content), set_cachedResult true ctx,
     (w1, (log ++ [GetCall cacheKey])%list)).
Proof.
  intros cacheKey Hget Hc.
  exact (middleware_hit (spy_cacher this) (spy_handler handler) action cfg Hcache
           ctx (w, log) (w1, (log ++ [GetCall cacheKey])%list) content
           (spied_get cacheKey w w1 _ log Hget) Hc).
Qed.

Lemma spied_miss (ctx : Ctx) (w w1 : World) (content : value) (log : list call) :
  let cacheKey :=
    getCacheKey (opts this) (name action) (params ctx) (meta ctx) (cache_keys cfg) in
  get this cacheKey w = (Return (Resolved content), w1) ->
  nullish content = true ->
  middleware (spy_cacher this) (spy_handler handler) action ctx (w, log)
  = match handler ctx w1 with
    | (Throw e, ctx2, w2) =>
        (Return (Rejected e), ctx2, (w2, (log ++ [GetCall cacheKey; HandlerCall ctx])%list))
    | (Return (Rejected e), ctx2, w2) =>
        (Return (Rejected e), ctx2, (w2, (log ++ [GetCall cacheKey; HandlerCall ctx])%list))
    | (Return (Resolved result), ctx2, w2) =>
        match set this cacheKey result (cache_ttl cfg) w2 with
        | (Throw e, w3) =>
            (Return (Rejected e), ctx2,
             (w3, (log ++ [GetCall cacheKey; HandlerCall ctx;
                           SetCall cacheKey result (cache_ttl cfg)])%list))
        | (Return _, w3) =>
            (Return (Resolved result), ctx2,
             (w3, (log ++ [GetCall cacheKey; HandlerCall ctx;
                           SetCall cacheKey result (cache_ttl cfg)])%list))
        end
    end.
Proof.
  intros cacheKey Hget Hc.
  rewrite (middleware_miss (spy_cacher this) (spy_handler handler) action cfg Hcache
             ctx (w, log) (w1, (log ++ [GetCall cacheKey])%list) content
             (spied_get cacheKey w w1 _ log Hget) Hc).
  cbn [opts spy_cacher]. fold cacheKey. simpl.
  destruct (handler ctx w1) as [[[e | [result | e]] ctx2] w2]; simpl;
    rewrite <- ?app_assoc; try reflexivity.
  destruct (set this cacheKey result (cache_ttl cfg) w2) as [[e | p] w3];
    simpl; rewrite <- ?app_assoc; reflexivity.
Qed.

(** X12: when [get] fails the failure is the invocation's own, thrown
    if [get] threw and a rejection if its promise rejected; the handler
    and [set] are not called and the context is left as it was. *)
Theorem middleware_get_failure (ctx : Ctx) (w w1 : World) (e : error) :
  let cacheKey :=
    getCacheKey (opts this) (name action) (params ctx) (meta ctx) (cache_keys cfg) in
  let run := middleware (spy_cacher this) (spy_handler handler) action ctx (w, []) in
  (get this cacheKey w = (Throw e, w1) ->
   run = (Throw e, ctx, (w1, [GetCall cacheKey]))) /\
  (get this cacheKey w = (Return (Rejected e), w1) ->
   run = (Return (Rejected e), ctx, (w1, [GetCall cacheKey]))).
Proof.
  intros cacheKey run. split; intros Hget.
  - exact (middleware_get_throws (spy_cacher this) (spy_handler handler) action cfg
             Hcache ctx (w, []) (w1, [GetCall cacheKey]) e
             (spied_get cacheKey w w1 _ [] Hget)).
  - exact (middleware_get_rejects (spy_cacher this) (spy_handler handler) action cfg
             ctx (w, []) (w1, [GetCall cacheKey]) e Hcache
             (spied_get cacheKey w w1 _ [] Hget)).
Qed.

(** X13: when the cache has nothing and the handler fails, by
    throwing or by rejecting, the invocation is rejected with the
    handler's error and [set] is not called: a failure is never stored. *)
Theorem middleware_handler_failure (ctx ctx2 : Ctx) (w w1 w2 : World)
    (content : value) (r : completion) (e : error) :
  let cacheKey :=
    getCacheKey (opts this) (name action) (params ctx) (meta ctx) (cache_keys cfg) in
  get this cacheKey w = (Return (Resolved content), w1) ->
  nullish content = true ->
  handler ctx w1 = (r, ctx2, w2) ->
  r = Throw e \/ r = Return (Rejected e) ->
  middleware (spy_cacher this) (spy_handler handler) action ctx (w, [])
  = (Return (Rejected e), ctx2, (w2, [GetCall cacheKey; HandlerCall ctx])).
Proof.
  intros cacheKey Hget Hc Hh Hr.
  rewrite (spied_miss ctx w w1 content [] Hget Hc). fold cacheKey.
  rewrite Hh. now destruct Hr as [-> | ->].
Qed.

(** X15: a miss followed by an invocation with the same parameters
    and metadata, on a backend that gives back under a key what was
    stored under it: when the handler's result is not null, the second
    invocation returns it from the cache, with [cachedResult] set, and
    the handler has run once in all. *)
Theorem middleware_miss_then_hit (ctx ctx' ctx2 : Ctx) (w w1 w2 w3 w4 : World)
    (content result : value) (p : settled) :
  let cacheKey :=
    getCacheKey (opts this) (name action) (params ctx) (meta ctx) (cache_keys cfg) in
  params ctx' = params ctx ->
  meta ctx' = meta ctx ->
  get this cacheKey w = (Return (Resolved content), w1) ->
  nullish content = true ->
  handler ctx w1 = (Return (Resolved result), ctx2, w2) ->
  set this cacheKey result (cache_ttl cfg) w2 = (Return p, w3) ->
  get this cacheKey w3 = (Return (Resolved result), w4) ->
  nullish result = false ->
  let first := middleware (spy_cacher this) (spy_handler handler) action ctx (w, []) in
  let second := middleware (spy_cacher this) (spy_handler handler) action ctx' (snd first) in
  fst (fst first) = Return (Resolved result) /\
  second = (Return (Resolved result), set_cachedResult true ctx',
            (w4, [GetCall cacheKey; HandlerCall ctx;
                  SetCall cacheKey result (cache_ttl cfg); GetCall cacheKey])).
Proof.
  intros cacheKey Hp Hm Hget Hc Hh Hset Hget2 Hres first second.
  assert (Hfirst : first = (Return (Resolved result), ctx2,
                            (w3, [GetCall cacheKey; HandlerCall ctx;
                                  SetCall cacheKey result (cache_ttl cfg)]))).
  { unfold first. rewrite (spied_miss ctx w w1 content [] Hget Hc). fold cacheKey.
    now rewrite Hh, Hset. }
  split; [now rewrite Hfirst|].
  unfold second. rewrite Hfirst. cbn [snd].
  assert (Hkey : getCacheKey (opts this) (name action) (params ctx') (meta ctx')
                   (cache_keys cfg) = cacheKey) by now rewrite Hp, Hm.
  pose proof (spied_hit ctx' w3 w4 result
                [GetCall cacheKey; HandlerCall ctx; SetCall cacheKey result (cache_ttl cfg)])
    as Hhit.
  cbv zeta in Hhit. rewrite Hkey in Hhit. exact (Hhit Hget2 Hres).
Qed.

(** X16: on the same kind of backend a handler result that is null or
    undefined is stored but not served: the next invocation finds it,
    takes it for a miss, and calls the handler and [set] again. *)
Theorem middleware_null_result_recomputed (ctx ctx' ctx2 ctx3 : Ctx)
    (w w1 w2 w3 w4 w5 w6 : World) (content result result' : value) (p p' : settled) :
  let cacheKey :=
    getCacheKey (opts this) (name action) (params ctx) (meta ctx) (cache_keys cfg) in
  params ctx' = params ctx ->
  meta ctx' = meta ctx ->
  get this cacheKey w = (Return (Resolved content), w1) ->
  nullish content = true ->
  handler ctx w1 = (Return (Resolved result), ctx2, w2) ->
  set this cacheKey result (cache_ttl cfg) w2 = (Return p, w3) ->
  get this cacheKey w3 = (Return (Resolved result), w4) ->
  nullish result = true ->
  handler ctx' w4 = (Return (Resolved result'), ctx3, w5) ->
  set this cacheKey result' (cache_ttl cfg) w5 = (Return p', w6) ->
  let first := middleware (spy_cacher this) (spy_handler handler) action ctx (w, []) in
  let second := middleware (spy_cacher this) (spy_handler handler) action ctx' (snd first) in
  second = (Return (Resolved result'), ctx3,
            (w6, [GetCall cacheKey; HandlerCall ctx;
                  SetCall cacheKey result (cache_ttl cfg);
                  GetCall cacheKey; HandlerCall ctx';
                  SetCall cacheKey result' (cache_ttl cfg)])).
Proof.
  intros cacheKey Hp Hm Hget Hc Hh Hset Hget2 Hres Hh2 Hset2 first second.
  assert (Hfirst : first = (Return (Resolved result), ctx2,
                            (w3, [GetCall cacheKey; HandlerCall ctx;
                                  SetCall cacheKey result (cache_ttl cfg)]))).
  { unfold first. rewrite (spied_miss ctx w w1 content [] Hget Hc). fold cacheKey.
    now rewrite Hh, Hset. }
  unfold second. rewrite Hfirst. cbn [snd].
  assert (Hkey : getCacheKey (opts this) (name action) (params ctx') (meta ctx')
                   (cache_keys cfg) = cacheKey) by now rewrite Hp, Hm.
  pose proof (spied_miss ctx' w3 w4 result
                [GetCall cacheKey; HandlerCall ctx; SetCall cacheKey result (cache_ttl cfg)])
    as Hmiss.
  cbv zeta in Hmiss. rewrite Hkey in Hmiss.
  rewrite (Hmiss Hget2 Hres), Hh2, Hset2. reflexivity.
Qed.

End MiddlewareRuns.

(** X14: on the abstract class itself every invocation of a cached
    action throws ["Not implemented method!"] at the [get], before the
    handler is reached. *)
Theorem middleware_abstract_cacher {World : Type} (o : CacherOptions)
    (handler : Handler World) (action : Action) (cfg : CacheConfig)
    (ctx : Ctx) (w : World) :
  cache action = Some cfg ->
  middleware (spy_cacher (abstract_Cacher o)) (spy_handler handler) action ctx (w, [])
  = (Throw "Not implemented method!", ctx,
     (w, [GetCall (getCacheKey (constructor o) (name action) (params ctx) (meta ctx)
                     (cache_keys cfg))])).
Proof.
  intros Hcache.
  exact (middleware_get_throws (spy_cacher (abstract_Cacher o)) (spy_handler handler)
           action cfg Hcache ctx (w, []) _ "Not implemented method!" eq_refl).
Qed.

Lemma middleware_abstract_cacher_witness :
  middleware (spy_cacher (abstract_Cacher default_opts))
    (spy_handler (const_handler (VStr "alice"))) cached_action ctx_id5 (([] : Store), [])
  = (Throw "Not implemented method!", ctx_id5, ([], [GetCall "users.get:id|5"])).
Proof.
  exact (middleware_abstract_cacher default_opts (const_handler (VStr "alice"))
           cached_action {| cache_keys := None; cache_ttl := VNum 30 |}
           ctx_id5 ([] : Store) eq_refl).
Defined.

Lemma middleware_get_failure_witness :
  middleware (spy_cacher (abstract_Cacher default_opts))
    (spy_handler (const_handler (VStr "alice"))) cached_action ctx_id5 (([] : Store), [])
  = (Throw "Not implemented method!", ctx_id5, ([], [GetCall "users.get:id|5"])) /\
  middleware
    (spy_cacher {| opts := default_opts;
                   get := fun _ (s : Store) => (Return (Rejected "timeout"), s);
                   set := set memory_cacher |})
    (spy_handler (const_handler (VStr "alice"))) cached_action ctx_id5 ([], [])
  = (Return (Rejected "timeout"), ctx_id5, ([], [GetCall "users.get:id|5"])).
Proof.
  split.
  - exact (proj1 (middleware_get_failure (abstract_Cacher default_opts)
                    (const_handler (VStr "alice")) cached_action
                    {| cache_keys := None; cache_ttl := VNum 30 |} eq_refl
                    ctx_id5 ([] : Store) [] "Not implemented method!") eq_refl).
  - exact (proj2 (middleware_get_failure
                    {| opts := default_opts;
                       get := fun _ (s : Store) => (Return (Rejected "timeout"), s);
                       set := set memory_cacher |}
                    (const_handler (VStr "alice")) cached_action
                    {| cache_keys := None; cache_ttl := VNum 30 |} eq_refl
                    ctx_id5 ([] : Store) [] "timeout") eq_refl).
Defined.

Lemma middleware_handler_failure_witness :
  middleware (spy_cacher memory_cacher)
    (spy_handler (fun ctx (s : Store) => (Return (Rejected "no such user"), ctx, s)))
    cached_action ctx_id5 ([], [])
  = (Return (Rejected "no such user"), ctx_id5,
     ([], [GetCall "users.get:id|5"; HandlerCall ctx_id5])).
Proof.
  exact (middleware_handler_failure memory_cacher
           (fun ctx (s : Store) => (Return (Rejected "no such user"), ctx, s))
           cached_action {| cache_keys := None; cache_ttl := VNum 30 |} eq_refl
           ctx_id5 ctx_id5 [] [] [] VNull (Return (Rejected "no such user"))
           "no such user" eq_refl eq_refl eq_refl (or_intror eq_refl)).
Defined.

Lemma middleware_miss_then_hit_witness :
  middleware (spy_cacher memory_cacher) (spy_handler (const_handler (VStr "alice")))
    cached_action ctx_id5
    (snd (middleware (spy_cacher memory_cacher) (spy_handler (const_handler (VStr "alice")))
            cached_action ctx_id5 ([], [])))
  = (Return (Resolved (VStr "alice")), set_cachedResult true ctx_id5,
     ([("users.get:id|5", VStr "alice")],
      [GetCall "users.get:id|5"; HandlerCall ctx_id5;
       SetCall "users.get:id|5" (VStr "alice") (VNum 30); GetCall "users.get:id|5"])).
Proof.
  exact (proj2 (middleware_miss_then_hit memory_cacher (const_handler (VStr "alice"))
                  cached_action {| cache_keys := None; cache_ttl := VNum 30 |} eq_refl
                  ctx_id5 ctx_id5 ctx_id5 [] [] [] [("users.get:id|5", VStr "alice")]
                  [("users.get:id|5", VStr "alice")] VNull (VStr "alice")
                  (Resolved VUndefined)
                  eq_refl eq_refl eq_refl eq_refl eq_refl eq_refl eq_refl eq_refl)).
Defined.

Lemma middleware_null_result_recomputed_witness :
  middleware (spy_cacher memory_cacher) (spy_handler (const_handler VNull))
    cached_action ctx_id5
    (snd (middleware (spy_cacher memory_cacher) (spy_handler (const_handler VNull))
            cached_action ctx_id5 ([], [])))
  = (Return (Resolved VNull), ctx_id5,
     ([("users.get:id|5", VNull); ("users.get:id|5", VNull)],
      [GetCall "users.get:id|5"; HandlerCall ctx_id5;
       SetCall "users.get:id|5" VNull (VNum 30);
       GetCall "users.get:id|5"; HandlerCall ctx_id5;
       SetCall "users.get:id|5" VNull (VNum 30)])).
Proof.
  exact (middleware_null_result_recomputed memory_cacher (const_handler VNull)
           cached_action {| cache_keys := None; cache_ttl := VNum 30 |} eq_refl
           ctx_id5 ctx_id5 ctx_id5 ctx_id5
           [] [] [] [("users.get:id|5", VNull)] [("users.get:id|5", VNull)]
           [("users.get:id|5", VNull)]
           [("users.get:id|5", VNull); ("users.get:id|5", VNull)]
           VNull VNull VNull (Resolved VUndefined) (Resolved VUndefined)
           eq_refl eq_refl eq_refl eq_refl eq_refl eq_refl eq_refl eq_refl eq_refl eq_refl).
Defined.

(* ================================================================== *)
(** ** [init]                                                          *)
(* ================================================================== *)

Lemma truthy_string_nonempty (p : string) : p <> "" -> truthy_string (Some p) = true.
Proof.
  intros Hp. unfold truthy_string, truthy.
  destruct (String.eqb_spec p ""); [contradiction | reflexivity].
Qed.

Lemma init_prefix_value (opts_prefix : option string) (b : Broker) :
  this_prefix (init opts_prefix (Some b))
  = Some (if truthy_string opts_prefix then string_or_empty opts_prefix ++ "-"
          else if truthy_string (namespace b)
               then "MOL-" ++ (string_or_empty (namespace b) ++ "-")
               else "MOL-").
Proof. reflexivity. Qed.

(** X17: attached to a broker, the cacher asks for the logger of the
    module "cacher", registers one middleware, and gets a prefix that
    ends with a dash: the configured prefix if it is not empty,
    otherwise "MOL-" followed by the namespace, if the broker has a
    non-empty one.  Without a broker nothing is set or registered. *)
Theorem init_prefix_shape (opts_prefix : option string) (b : Broker) :
  (exists body : string, this_prefix (init opts_prefix (Some b)) = Some (body ++ "-")) /\
  (forall p : string, opts_prefix = Some p -> p <> "" ->
     this_prefix (init opts_prefix (Some b)) = Some (p ++ "-")) /\
  (opts_prefix = None \/ opts_prefix = Some "" ->
   exists rest : string,
     this_prefix (init opts_prefix (Some b)) = Some ("MOL-" ++ rest) /\
     (forall ns : string, namespace b = Some ns -> ns <> "" -> rest = ns ++ "-") /\
     (namespace b = None \/ namespace b = Some "" -> rest = "")) /\
  this_logger (init opts_prefix (Some b)) = Some "cacher" /\
  registered (init opts_prefix (Some b)) = 1%nat /\
  init opts_prefix None
  = {| this_broker := None; this_logger := None; this_prefix := None; registered := 0 |}.
Proof.
  assert (Hdefault : exists rest : string,
             (if truthy_string (namespace b)
              then "MOL-" ++ (string_or_empty (namespace b) ++ "-")
              else "MOL-") = "MOL-" ++ rest /\
             (forall ns : string, namespace b = Some ns -> ns <> "" -> rest = ns ++ "-") /\
             (namespace b = None \/ namespace b = Some "" -> rest = "") /\
             (rest = "" \/ exists body, rest = body ++ "-")).
  { destruct (namespace b) as [ns|]; [destruct (string_dec ns "") as [->|Hn]|].
    - exists "". split; [reflexivity|]. split; [|split; [reflexivity | now left]].
      intros ns [= <-] Hn. now elim Hn.
    - exists (ns ++ "-"). rewrite (truthy_string_nonempty ns Hn).
      split; [reflexivity|]. split; [|split; [|right; now exists ns]].
      + now intros ns' [= <-] _.
      + intros [[=] | [= ->]]. now elim Hn.
    - exists "". split; [reflexivity|]. split; [|split; [reflexivity | now left]].
      intros ns [=]. }
  destruct Hdefault as [rest [Hrest [Hns [Hnone Hshape]]]].
  rewrite init_prefix_value.
  split; [|split; [|split; [|split; [reflexivity | split; reflexivity]]]].
  - destruct opts_prefix as [p|]; [destruct (string_dec p "") as [->|Hp]|].
    + change (truthy_string (Some "")) with false. cbv iota. rewrite Hrest.
      destruct Hshape as [-> | [body ->]]; [now exists "MOL" |].
      exists ("MOL-" ++ body). now rewrite append_assoc.
    + rewrite (truthy_string_nonempty p Hp). now exists p.
    + change (truthy_string None) with false. cbv iota. rewrite Hrest.
      destruct Hshape as [-> | [body ->]]; [now exists "MOL" |].
      exists ("MOL-" ++ body). now rewrite append_assoc.
  - intros p -> Hp. now rewrite (truthy_string_nonempty p Hp).
  - intros Hp.
    assert (Hf : truthy_string opts_prefix = false) by now destruct Hp as [-> | ->].
    rewrite Hf, Hrest. exists rest. now split.
Qed.

Lemma init_prefix_shape_witness :
  this_prefix (init (Some "shop") (Some {| namespace := Some "dev" |})) = Some "shop-" /\
  this_prefix (init None (Some {| namespace := Some "dev" |})) = Some "MOL-dev-".
Proof.
  destruct (init_prefix_shape (Some "shop") {| namespace := Some "dev" |})
    as [_ [Hcustom _]].
  destruct (init_prefix_shape None {| namespace := Some "dev" |})
    as [_ [_ [Hdefault _]]].
  split.
  - apply (Hcustom "shop" eq_refl). discriminate.
  - destruct (Hdefault (or_introl eq_refl)) as [rest [Hpre [Hns _]]].
    rewrite Hpre. rewrite (Hns "dev" eq_refl); [reflexivity | discriminate].
Defined.
